(** * GKE upgrade notices to Slack: a shallow embedding of [main.py]

    The Cloud Function of [main.py] receives a Pub/Sub envelope, keeps the
    events whose [type_url] is on an allow-list, renders the decoded payload
    and the envelope attributes as one text and posts it to a Slack webhook.

    Modelling choices.
    - A Python [str] is a [string]; [==] on [str] is Leibniz equality,
      decided by [String.eqb].
    - A Python [dict] with [str] keys and values is an association list in
      insertion order (iteration order is what [create_slack_message]
      observes); a well-formed dict has pairwise distinct keys.
    - A raised exception is the [Raise] branch of [result].
    - The body of [main] runs in a small logging monad: each evaluation of
      an operation that can fail or that leaves the process is recorded, in
      program order, so that "before", "never" and "exactly once" are
      statements about the log.
    - [base64.b64decode], [bytes.decode], [WebhookClient.send] and
      [os.environ] belong to the host, not to the repository; [main] takes
      them as parameters. *)

From Stdlib Require Import Ascii String Strings.Byte List NArith ZArith Lia.
From stdpp Require Import gmap strings list.

(** ** Text constants *)

(** The characters the source writes as [\n] and [\t]. *)
Definition nl : string := String (ascii_of_nat 10) EmptyString.
Definition tab : string := String (ascii_of_nat 9) EmptyString.

(** The Markdown fence that opens and closes the attribute block. *)
Definition fence : string := "```".

(** ** Exceptions and results *)

Inductive exn : Type :=
| KeyError (key : string)          (* [d[key]] on an absent key *)
| BinasciiError                    (* [base64.b64decode] rejects its input *)
| UnicodeDecodeError               (* [bytes.decode('utf-8')] rejects the bytes *)
| WebhookRaised (reason : string). (* [WebhookClient.send] raises *)

Inductive result (A : Type) : Type :=
| Ok (a : A)
| Raise (e : exn).

Arguments Ok {A} a.
Arguments Raise {A} e.


(** ** Dictionaries *)

Definition dict : Type := list (string * string).

(** [for key in d] visits the keys in insertion order. *)
Definition dict_keys (d : dict) : list string := map fst d.

(** [d[key]]: [None] stands for the [KeyError]. *)
Fixpoint dict_getitem (d : dict) (key : string) : option string :=
  match d with
  | [] => None
  | (k, v) :: rest => if String.eqb k key then Some v else dict_getitem rest key
  end.

(** [d[key] = value]: an existing key keeps its position, a new key goes
    last.  Dict literals are built with it, left to right. *)
Fixpoint dict_setitem (d : dict) (key value : string) : dict :=
  match d with
  | [] => [(key, value)]
  | (k, v) :: rest =>
      if String.eqb k key then (k, value) :: rest
      else (k, v) :: dict_setitem rest key value
  end.

Definition dict_literal (items : list (string * string)) : dict :=
  fold_left (fun d kv => dict_setitem d (fst kv) (snd kv)) items [].

(** ** [is_allowed_type] *)

(** The [for url in allowed_type_urls] loop; the subscript
    [pubsub_attributes['type_url']] is evaluated afresh at every iteration
    and is the only place that can raise. *)
Fixpoint is_allowed_type_loop (pubsub_attributes : dict) (urls : list string)
  : result bool :=
  match urls with
  | [] => Ok false
  | url :: rest =>
      match dict_getitem pubsub_attributes "type_url" with
      | None => Raise (KeyError "type_url")
      | Some t =>
          if String.eqb t url then Ok true
          else is_allowed_type_loop pubsub_attributes rest
      end
  end.

Definition is_allowed_type (pubsub_attributes : dict)
  (allowed_type_urls : list string) : result bool :=
  match allowed_type_urls with
  | [] => Ok true                      (* [if not allowed_type_urls] *)
  | _ :: _ => is_allowed_type_loop pubsub_attributes allowed_type_urls
  end.

(** ** [create_slack_message] *)

(** The [for key in pubsub_attributes] loop, threading [text]. *)
Fixpoint append_attribute_lines (pubsub_attributes : dict)
  (keys : list string) (text : string) : result string :=
  match keys with
  | [] => Ok text
  | key :: rest =>
      match dict_getitem pubsub_attributes key with
      | None => Raise (KeyError key)
      | Some value =>
          append_attribute_lines pubsub_attributes rest
            (text +:+ (nl +:+ tab +:+ key +:+ ": " +:+ value))
      end
  end.

Definition create_slack_message (data : string) (pubsub_attributes : dict)
  : result string :=
  let text := data +:+ (nl +:+ fence) in
  match append_attribute_lines pubsub_attributes
          (dict_keys pubsub_attributes) text with
  | Ok text => Ok (text +:+ (nl +:+ fence))
  | Raise e => Raise e
  end.

(** The text the loop is expected to add for one attribute, and the whole
    fenced block; used to state what [create_slack_message] returns. *)
Definition attribute_line (kv : string * string) : string :=
  nl +:+ tab +:+ fst kv +:+ ": " +:+ snd kv.

Fixpoint attribute_lines (d : dict) : string :=
  match d with
  | [] => ""
  | kv :: rest => attribute_line kv +:+ attribute_lines rest
  end.

Definition fenced_block (d : dict) : string :=
  nl +:+ fence +:+ attribute_lines d +:+ nl +:+ fence.

(** ** The logging monad of [main] *)

(** What [WebhookClient.send] hands back: the HTTP status and body of the
    reply.  [main] binds it to [response] and never reads it. *)
Record WebhookResponse : Type := {
  status_code : Z;
  body : string
}.

(** The two ways a call of [WebhookClient.send] ends. *)
Inductive send_outcome : Type :=
| SendReturns (response : WebhookResponse)
| SendRaises (reason : string).

(** One entry per evaluated operation, with its arguments. *)
Inductive effect : Type :=
| EventGet (key : string)                    (* [event[key]] *)
| EnvironGet (key : string)                  (* [os.environ[key]] *)
| B64Decode (encoded : string)               (* [base64.b64decode(..)] *)
| Utf8Decode (raw : list byte)               (* [.decode('utf-8')] *)
| IsAllowedType (attributes : dict) (urls : list string)
| CreateSlackMessage (data : string) (attributes : dict)
| WebhookSend (url text : string).           (* [webhook.send(text=..)] *)

(** A computation: the log it wrote and how it ended. *)
Definition M (A : Type) : Type := list effect * result A.

Definition trace {A : Type} (m : M A) : list effect := fst m.
Definition outcome {A : Type} (m : M A) : result A := snd m.

Definition perform {A : Type} (e : effect) (r : result A) : M A := ([e], r).

#[global] Instance M_ret : MRet M := fun A a => ([], Ok a).

#[global] Instance M_bind : MBind M := fun A B k m =>
  match m with
  | (t, Ok a) => (t ++ fst (k a), snd (k a))
  | (t, Raise e) => (t, Raise e)
  end.

(** [d[key]] as a result. *)
Definition getitem {A : Type} (key : string) (o : option A) : result A :=
  match o with
  | Some a => Ok a
  | None => Raise (KeyError key)
  end.

(** Observers on logs. *)

(** The (url, text) pairs of the calls to the notifier, in order. *)
Fixpoint sends (t : list effect) : list (string * string) :=
  match t with
  | [] => []
  | WebhookSend url text :: rest => (url, text) :: sends rest
  | _ :: rest => sends rest
  end.

(** The allow-lists handed to [is_allowed_type], in order. *)
Fixpoint filter_calls (t : list effect) : list (list string) :=
  match t with
  | [] => []
  | IsAllowedType _ urls :: rest => urls :: filter_calls rest
  | _ :: rest => filter_calls rest
  end.

Definition is_decode_step (e : effect) : bool :=
  match e with
  | B64Decode _ | Utf8Decode _ => true
  | _ => false
  end.

Definition is_filter_step (e : effect) : bool :=
  match e with
  | IsAllowedType _ _ => true
  | _ => false
  end.

Definition is_environ_step (e : effect) : bool :=
  match e with
  | EnvironGet _ => true
  | _ => false
  end.

(** The position of an operation in the body of [main]: the two
    subscripts of [event] are told apart by their key. *)
Definition effect_stage (e : effect) : nat :=
  match e with
  | EventGet key => if String.eqb key "attributes" then 0 else 2
  | EnvironGet _ => 1
  | B64Decode _ => 3
  | Utf8Decode _ => 4
  | IsAllowedType _ _ => 5
  | CreateSlackMessage _ _ => 6
  | WebhookSend _ _ => 7
  end.

(** The step of [main] an exception comes from.  A [KeyError] names its
    subscript; a key other than the four that [main] and the filter
    subscript could only come from the loop of [create_slack_message]. *)
Definition raising_stage (e : exn) : nat :=
  match e with
  | KeyError key =>
      if String.eqb key "attributes" then 0
      else if String.eqb key "SLACK_WEBHOOK_URL" then 1
      else if String.eqb key "data" then 2
      else if String.eqb key "type_url" then 5
      else 6
  | BinasciiError => 3
  | UnicodeDecodeError => 4
  | WebhookRaised _ => 7
  end.

(** ** The envelope and [main] *)

(** The [event] dict of a Pub/Sub trigger; [None] is an absent key.  A
    present [attributes] is a dict and a present [data] a [str], as the
    annotations of [is_allowed_type] and [create_slack_message] say. *)
Record Event : Type := {
  event_attributes : option dict;    (* [event['attributes']] *)
  event_data : option string         (* [event['data']] *)
}.

Definition allowed_type_urls : list string :=
  ["type.googleapis.com/google.container.v1beta1.UpgradeEvent"].

Section Main.

(** The host: the two decoders of the standard library ([None] when they
    raise), the Slack client and the process environment. *)
Variable b64decode : string -> option (list byte).
Variable decode_utf8 : list byte -> option string.
Variable webhook_send : string -> string -> send_outcome.
Variable environ : gmap string string.

Definition call_b64decode (encoded : string) : M (list byte) :=
  perform (B64Decode encoded)
    (match b64decode encoded with
     | Some raw => Ok raw
     | None => Raise BinasciiError
     end).

Definition call_decode_utf8 (raw : list byte) : M string :=
  perform (Utf8Decode raw)
    (match decode_utf8 raw with
     | Some text => Ok text
     | None => Raise UnicodeDecodeError
     end).

Definition call_webhook_send (url text : string) : M WebhookResponse :=
  perform (WebhookSend url text)
    (match webhook_send url text with
     | SendReturns response => Ok response
     | SendRaises reason => Raise (WebhookRaised reason)
     end).

Definition main (event : Event) : M unit :=
  pubsub_attributes ←
    perform (EventGet "attributes")
      (getitem "attributes" (event_attributes event));
  slack_url ←
    perform (EnvironGet "SLACK_WEBHOOK_URL")
      (getitem "SLACK_WEBHOOK_URL" (environ !! "SLACK_WEBHOOK_URL"));
  encoded ← perform (EventGet "data") (getitem "data" (event_data event));
  raw ← call_b64decode encoded;
  data ← call_decode_utf8 raw;
  is_allowed ←
    perform (IsAllowedType pubsub_attributes allowed_type_urls)
      (is_allowed_type pubsub_attributes allowed_type_urls);
  if is_allowed : bool then
    (* [webhook = WebhookClient(slack_url)]: the client belongs to the
       host; what it does with the URL is part of [webhook_send] *)
    slack_message ←
      perform (CreateSlackMessage data pubsub_attributes)
        (create_slack_message data pubsub_attributes);
    response ← call_webhook_send slack_url slack_message;
    mret tt
  else mret tt.

End Main.

(** The exception a missing webhook configuration surfaces as. *)
Definition configuration_error : exn := KeyError "SLACK_WEBHOOK_URL".

(** The log of a run up to and including the two decoding steps. *)
Definition decoded_prefix (encoded : string) (raw : list byte) : list effect :=
  [EventGet "attributes"; EnvironGet "SLACK_WEBHOOK_URL"; EventGet "data";
   B64Decode encoded; Utf8Decode raw].

(** ** A reference host

    Concrete instances of the four host parameters, to run [main] on
    concrete envelopes.  There are two base64 decoders.  [b64decode] is
    the strict reading of RFC 4648 (standard alphabet, padded groups of
    four, nothing skipped): it accepts exactly the valid encodings.
    [b64decode_lenient] follows the loop of [binascii.a2b_base64], which
    is what [base64.b64decode] runs when it is called without [validate],
    as [main] calls it: characters outside the alphabet are skipped, not
    rejected.  What the strict one accepts, the lenient one decodes to
    the same bytes.  The rest is an RFC 3629
    well-formedness check that returns the text as its UTF-8 bytes, and
    constant notifiers. *)
Module Reference.

Definition in_range (lo hi n : N) : bool := ((lo <=? n) && (n <=? hi))%N.

(** The value of a character of the standard alphabet. *)
Definition sextet (c : ascii) : option N :=
  let n := N_of_ascii c in
  if in_range 65 90 n then Some (n - 65)%N            (* A-Z *)
  else if in_range 97 122 n then Some (n - 71)%N      (* a-z *)
  else if in_range 48 57 n then Some (n + 4)%N        (* 0-9 *)
  else if (n =? 43)%N then Some 62%N                  (* + *)
  else if (n =? 47)%N then Some 63%N                  (* / *)
  else None.

Definition is_pad (c : ascii) : bool := (N_of_ascii c =? 61)%N.

Definition byte_of_N (n : N) : byte := byte_of_ascii (ascii_of_N n).

(** The bytes of one group of four characters; padding is accepted only
    where [last] says the group is the final one. *)
Definition decode_group (last : bool) (a b c d : ascii)
  : option (list byte) :=
  match sextet a, sextet b with
  | Some x, Some y =>
      let b0 := byte_of_N (x * 4 + y / 16) in
      match sextet c with
      | Some z =>
          let b1 := byte_of_N ((y mod 16) * 16 + z / 4) in
          match sextet d with
          | Some w => Some [b0; b1; byte_of_N ((z mod 4) * 64 + w)]
          | None => if last && is_pad d then Some [b0; b1] else None
          end
      | None => if last && is_pad c && is_pad d then Some [b0] else None
      end
  | _, _ => None
  end.

Fixpoint decode_groups (cs : list ascii) : option (list byte) :=
  match cs with
  | [] => Some []
  | [a; b; c; d] => decode_group true a b c d
  | a :: b :: c :: d :: rest =>
      match decode_group false a b c d, decode_groups rest with
      | Some bs, Some more => Some (bs ++ more)
      | _, _ => None
      end
  | _ => None
  end.

Definition b64decode (encoded : string) : option (list byte) :=
  decode_groups (list_ascii_of_string encoded).

(** Whether the next character that is in the alphabet or is the pad
    character is the pad character. *)
Fixpoint next_valid_is_pad (cs : list ascii) : bool :=
  match cs with
  | [] => false
  | c :: rest =>
      if is_pad c then true
      else match sextet c with
           | Some _ => false
           | None => next_valid_is_pad rest
           end
  end.

(** The loop of [binascii.a2b_base64]: [quad_pos] counts the alphabet
    characters of the current group, [leftchar] holds the [leftbits] bits
    not yet written.  A pad character ends the input when the group has
    three characters, or two and the next valid character is a pad as
    well; any other pad, and any character outside the alphabet, is
    skipped.  Bits left over at the end are the one error. *)
Fixpoint a2b_base64 (cs : list ascii) (quad_pos leftbits leftchar : N)
  (out : list byte) : option (list byte) :=
  match cs with
  | [] => if (leftbits =? 0)%N then Some out else None
  | c :: rest =>
      if is_pad c then
        if (quad_pos <? 2)%N
           || ((quad_pos =? 2)%N && negb (next_valid_is_pad rest))
        then a2b_base64 rest quad_pos leftbits leftchar out
        else Some out
      else
        match sextet c with
        | None => a2b_base64 rest quad_pos leftbits leftchar out
        | Some v =>
            let quad_pos := ((quad_pos + 1) mod 4)%N in
            let leftchar := (leftchar * 64 + v)%N in
            let leftbits := (leftbits + 6)%N in
            if (8 <=? leftbits)%N then
              let leftbits := (leftbits - 8)%N in
              a2b_base64 rest quad_pos leftbits (leftchar mod 2 ^ leftbits)%N
                (out ++ [byte_of_N ((leftchar / 2 ^ leftbits) mod 256)%N])
            else a2b_base64 rest quad_pos leftbits leftchar out
        end
  end.

(** [base64.b64decode(s)] on a [str]: a character outside ASCII is an
    error before the loop runs. *)
Definition b64decode_lenient (encoded : string) : option (list byte) :=
  let cs := list_ascii_of_string encoded in
  if forallb (fun c => (N_of_ascii c <=? 127)%N) cs
  then a2b_base64 cs 0 0 0 []
  else None.

(** Well-formed UTF-8 (RFC 3629, table 3-7 of the Unicode standard). *)
Definition continuation (n : N) : bool := in_range 128 191 n.

Definition second_of_three (b0 b1 : N) : bool :=
  if (b0 =? 224)%N then in_range 160 191 b1
  else if (b0 =? 237)%N then in_range 128 159 b1
  else continuation b1.

Definition second_of_four (b0 b1 : N) : bool :=
  if (b0 =? 240)%N then in_range 144 191 b1
  else if (b0 =? 244)%N then in_range 128 143 b1
  else continuation b1.

Fixpoint utf8_valid (bs : list N) : bool :=
  match bs with
  | [] => true
  | b0 :: rest =>
      if (b0 <? 128)%N then utf8_valid rest
      else if in_range 194 223 b0 then
        match rest with
        | b1 :: rest' => continuation b1 && utf8_valid rest'
        | _ => false
        end
      else if in_range 224 239 b0 then
        match rest with
        | b1 :: b2 :: rest' =>
            second_of_three b0 b1 && continuation b2 && utf8_valid rest'
        | _ => false
        end
      else if in_range 240 244 b0 then
        match rest with
        | b1 :: b2 :: b3 :: rest' =>
            second_of_four b0 b1 && continuation b2 && continuation b3
            && utf8_valid rest'
        | _ => false
        end
      else false
  end.

Definition decode_utf8 (raw : list byte) : option string :=
  if utf8_valid (map Byte.to_N raw) then Some (string_of_list_byte raw)
  else None.

(** Notifiers: Slack answers 200, Slack answers 500, the network is down. *)
Definition slack_accepts (url text : string) : send_outcome :=
  SendReturns {| status_code := 200; body := "ok" |}.

Definition slack_rejects (url text : string) : send_outcome :=
  SendReturns {| status_code := 500; body := "internal_error" |}.

Definition network_down (url text : string) : send_outcome :=
  SendRaises "URLError".

(** Environments. *)
Definition webhook_url : string :=
  "https://hooks.slack.com/services/T000/B000/XXXX".

Definition configured : gmap string string :=
  {[ "SLACK_WEBHOOK_URL" := webhook_url ]}.

Definition unconfigured : gmap string string := ∅.

(** Envelopes. *)
Definition upgrade_attributes : dict :=
  dict_literal
    [("type_url", "type.googleapis.com/google.container.v1beta1.UpgradeEvent")].

Definition other_attributes : dict :=
  dict_literal [("type_url", "some.other.Event")].

(** Scenario A: an upgrade event; [data] encodes "Node pool upgraded". *)
Definition upgrade_event : Event :=
  {| event_attributes := Some upgrade_attributes;
     event_data := Some "Tm9kZSBwb29sIHVwZ3JhZGVk" |}.

(** Scenario B: an event of another type. *)
Definition other_event : Event :=
  {| event_attributes := Some other_attributes;
     event_data := Some "Tm9kZSBwb29sIHVwZ3JhZGVk" |}.

(** An envelope without the [attributes] key. *)
Definition bare_event : Event :=
  {| event_attributes := None;
     event_data := Some "Tm9kZSBwb29sIHVwZ3JhZGVk" |}.

(** Attributes present, but no [type_url] among them. *)
Definition untyped_event : Event :=
  {| event_attributes := Some (dict_literal [("cluster", "prod")]);
     event_data := Some "Tm9kZSBwb29sIHVwZ3JhZGVk" |}.




(** [data] encodes the single byte 0xFF, which is not UTF-8. *)
Definition binary_event : Event :=
  {| event_attributes := Some upgrade_attributes;
     event_data := Some "/w==" |}.

(** [main] on the reference host. *)
Definition run (send : string -> string -> send_outcome)
  (environ : gmap string string) (event : Event) : M unit :=
  main b64decode decode_utf8 send environ event.

End Reference.


(** * Properties *)

(** ** Strings and dictionaries *)

Lemma append_cons (a : ascii) (s t : string) :
  String a s +:+ t = String a (s +:+ t).
Proof. reflexivity. Qed.

Lemma append_assoc (s t u : string) : (s +:+ t) +:+ u = s +:+ (t +:+ u).
Proof.
  induction s as [|a s IH]; [reflexivity|].
  rewrite !append_cons. by rewrite IH.
Qed.

Lemma append_empty_r (s : string) : s +:+ "" = s.
Proof.
  induction s as [|a s IH]; [reflexivity|].
  rewrite append_cons. by rewrite IH.
Qed.

Lemma dict_getitem_None (d : dict) (key : string) :
  dict_getitem d key = None <-> key ∉ dict_keys d.
Proof.
  induction d as [|[k v] d IH]; simpl.
  - split; [intros _; apply not_elem_of_nil | done].
  - rewrite not_elem_of_cons. destruct (String.eqb_spec k key) as [->|Hne].
    + split; [done | intros [? _]; done].
    + rewrite IH. split; [intros ?; split; [congruence | done] | intros [_ ?]; done].
Qed.

(** In a dict with distinct keys, the subscript at a stored key gives the
    value stored with it. *)
Lemma dict_getitem_middle (pre suf : dict) (k v : string) :
  k ∉ dict_keys pre -> dict_getitem (pre ++ (k, v) :: suf) k = Some v.
Proof.
  induction pre as [|[k' v'] pre IH]; simpl; intros Hk.
  - by rewrite String.eqb_refl.
  - apply not_elem_of_cons in Hk as [Hne Hk].
    destruct (String.eqb_spec k' k) as [->|_]; [done | by apply IH].
Qed.

Lemma dict_keys_app (d1 d2 : dict) :
  dict_keys (d1 ++ d2) = dict_keys d1 ++ dict_keys d2.
Proof. apply map_app. Qed.

(** The loop over the keys of a suffix of the dict appends exactly the
    lines of that suffix, and never raises. *)
Lemma append_attribute_lines_suffix (suf pre : dict) (text : string) :
  NoDup (dict_keys (pre ++ suf)) ->
  append_attribute_lines (pre ++ suf) (dict_keys suf) text
  = Ok (text +:+ attribute_lines suf).
Proof.
  revert pre text. induction suf as [|[k v] suf IH]; intros pre text Hnd; simpl.
  - by rewrite append_empty_r.
  - rewrite dict_getitem_middle.
    + replace (pre ++ (k, v) :: suf) with ((pre ++ [(k, v)]) ++ suf) in *
        by (by rewrite <- app_assoc).
      rewrite IH by done. by rewrite append_assoc.
    + rewrite dict_keys_app in Hnd. apply NoDup_app in Hnd as (_ & Hdisj & _).
      intros Hin. apply (Hdisj k Hin). simpl. apply elem_of_cons. by left.
Qed.

Lemma dict_setitem_keys_fresh (d : dict) (key value : string) :
  key ∉ dict_keys d -> dict_keys (dict_setitem d key value) = dict_keys d ++ [key].
Proof.
  induction d as [|[k v] d IH]; simpl; [done|]. intros Hk.
  apply not_elem_of_cons in Hk as [Hne Hk].
  destruct (String.eqb_spec k key) as [->|_]; [done|]. simpl. by rewrite IH.
Qed.

Lemma dict_setitem_keys_present (d : dict) (key value : string) :
  key ∈ dict_keys d -> dict_keys (dict_setitem d key value) = dict_keys d.
Proof.
  induction d as [|[k v] d IH]; simpl; [by intros ?%elem_of_nil|]. intros Hk.
  destruct (String.eqb_spec k key) as [->|Hne]; [done|]. simpl.
  apply elem_of_cons in Hk as [->|Hk]; [done | by rewrite IH].
Qed.

(** Assignment keeps the keys distinct, so every dict literal is
    well-formed. *)
Lemma dict_setitem_NoDup (d : dict) (key value : string) :
  NoDup (dict_keys d) -> NoDup (dict_keys (dict_setitem d key value)).
Proof.
  intros Hnd. destruct (decide (key ∈ dict_keys d)) as [Hin|Hout].
  - by rewrite dict_setitem_keys_present.
  - rewrite dict_setitem_keys_fresh by done.
    apply NoDup_app. split_and!; [done | | apply NoDup_singleton].
    intros x Hx ->%list_elem_of_singleton. done.
Qed.

Lemma dict_literal_NoDup (items : list (string * string)) :
  NoDup (dict_keys (dict_literal items)).
Proof.
  unfold dict_literal.
  assert (forall d, NoDup (dict_keys d) ->
    NoDup (dict_keys (fold_left
      (fun d kv => dict_setitem d (fst kv) (snd kv)) items d))) as H.
  { induction items as [|[k v] items IH]; simpl; [done|].
    intros d Hd. apply IH. by apply dict_setitem_NoDup. }
  apply H. apply NoDup_nil_2.
Qed.

(** ** The relevance filter *)

(** With [type_url] present the loop is a membership test. *)
Lemma is_allowed_type_loop_member (attributes : dict) (t : string)
  (urls : list string) :
  dict_getitem attributes "type_url" = Some t ->
  is_allowed_type_loop attributes urls = Ok (bool_decide (t ∈ urls)).
Proof.
  intros Ht. induction urls as [|url urls IH]; cbn [is_allowed_type_loop].
  - rewrite bool_decide_eq_false_2; [done | apply not_elem_of_nil].
  - rewrite Ht. destruct (String.eqb_spec t url) as [->|Hne].
    + rewrite bool_decide_eq_true_2; [done | apply elem_of_cons; by left].
    + rewrite IH. f_equal. apply bool_decide_ext. rewrite elem_of_cons.
      split; [by right | by intros [?|?]].
Qed.

(** C1: for attributes holding [type_url] with value [t] and a non-empty
    allow-list [L], [is_allowed_type] returns a boolean (it does not
    raise), and that boolean is true exactly when [t] is a member of [L];
    membership is equality of strings, character for character. *)
Theorem is_allowed_type_iff_member (attributes : dict) (t : string)
  (L : list string) :
  dict_getitem attributes "type_url" = Some t ->
  L <> [] ->
  (exists b : bool, is_allowed_type attributes L = Ok b) /\
  (is_allowed_type attributes L = Ok true <-> t ∈ L).
Proof.
  intros Ht HL.
  assert (is_allowed_type attributes L = Ok (bool_decide (t ∈ L))) as ->.
  { destruct L as [|url L]; [done|]. by apply is_allowed_type_loop_member. }
  split; [eauto|]. split.
  - by intros [= Hb%bool_decide_eq_true].
  - intros Hin. by rewrite bool_decide_eq_true_2.
Qed.

(** The comparison distinguishes letter case. *)
Example is_allowed_type_case_sensitive :
  is_allowed_type
    [("type_url", "TYPE.googleapis.com/google.container.v1beta1.UpgradeEvent")]
    allowed_type_urls = Ok false.
Proof. reflexivity. Qed.

(** C4: with the empty allow-list [is_allowed_type] returns true for every
    attributes mapping, also the empty one and one without [type_url]; the
    result is a value, not an exception. *)
Theorem is_allowed_type_empty_allow_list (attributes : dict) :
  is_allowed_type attributes [] = Ok true.
Proof. reflexivity. Qed.

Example is_allowed_type_empty_both : is_allowed_type [] [] = Ok true.
Proof. reflexivity. Qed.

(** Without [type_url] the first iteration of the loop raises. *)
Lemma is_allowed_type_loop_missing (attributes : dict) (url : string)
  (urls : list string) :
  dict_getitem attributes "type_url" = None ->
  is_allowed_type_loop attributes (url :: urls) = Raise (KeyError "type_url").
Proof. intros Ht. simpl. by rewrite Ht. Qed.

(** ** The formatter *)

Lemma create_slack_message_NoDup (data : string) (attributes : dict) :
  NoDup (dict_keys attributes) ->
  create_slack_message data attributes
  = Ok (data +:+ fenced_block attributes).
Proof.
  intros Hnd. unfold create_slack_message, fenced_block.
  rewrite (append_attribute_lines_suffix attributes []) by done.
  by rewrite !append_assoc.
Qed.

(** C2: for a mapping (distinct keys) [create_slack_message] returns the
    decoded text, a newline and the fence, then for each attribute in
    iteration order a newline, a tab, the key, ": " and the value, then a
    newline and the fence.  For the empty mapping that is the text followed
    by an empty fenced block, and for "hello" with a:1, b:2 it is the text
    spelled out below. *)
Theorem create_slack_message_renders (decoded_text : string)
  (attributes : dict) :
  NoDup (dict_keys attributes) ->
  create_slack_message decoded_text attributes
  = Ok (decoded_text +:+ nl +:+ fence
        +:+ attribute_lines attributes +:+ nl +:+ fence)
  /\ create_slack_message decoded_text []
     = Ok (decoded_text +:+ nl +:+ fence +:+ nl +:+ fence)
  /\ create_slack_message "hello" (dict_literal [("a", "1"); ("b", "2")])
     = Ok ("hello" +:+ nl +:+ fence
           +:+ nl +:+ tab +:+ "a: 1"
           +:+ nl +:+ tab +:+ "b: 2"
           +:+ nl +:+ fence).
Proof.
  intros Hnd. split_and!.
  - by apply create_slack_message_NoDup.
  - rewrite create_slack_message_NoDup by apply NoDup_nil_2. reflexivity.
  - reflexivity.
Qed.

Lemma create_slack_message_renders_witness :
  NoDup (dict_keys Reference.upgrade_attributes) /\
  create_slack_message "Node pool upgraded" Reference.upgrade_attributes
  = Ok ("Node pool upgraded" +:+ nl +:+ fence
        +:+ nl +:+ tab
        +:+ "type_url: type.googleapis.com/google.container.v1beta1.UpgradeEvent"
        +:+ nl +:+ fence).
Proof.
  split; [compute_done|].
  apply (create_slack_message_renders "Node pool upgraded"
           Reference.upgrade_attributes).
  compute_done.
Defined.

Lemma is_allowed_type_iff_member_witness :
  (exists b : bool,
     is_allowed_type Reference.upgrade_attributes allowed_type_urls = Ok b) /\
  (is_allowed_type Reference.upgrade_attributes allowed_type_urls = Ok true
   <-> "type.googleapis.com/google.container.v1beta1.UpgradeEvent"
       ∈ allowed_type_urls).
Proof.
  apply (is_allowed_type_iff_member Reference.upgrade_attributes
          "type.googleapis.com/google.container.v1beta1.UpgradeEvent"
          allowed_type_urls).
  - reflexivity.
  - discriminate.
Defined.

(** ** More on the filter *)

(** The three ways [is_allowed_type] ends, read off its two inputs. *)
Lemma is_allowed_type_result (attributes : dict) (L : list string) :
  is_allowed_type attributes L
  = match L, dict_getitem attributes "type_url" with
    | [], _ => Ok true
    | _ :: _, None => Raise (KeyError "type_url")
    | _ :: _, Some t => Ok (bool_decide (t ∈ L))
    end.
Proof.
  destruct L as [|url L]; [done|].
  destruct (dict_getitem attributes "type_url") as [t|] eqn:Ht.
  - by apply is_allowed_type_loop_member.
  - by apply is_allowed_type_loop_missing.
Qed.

(** X1: the result depends on the allow-list only through its members: order
    and repetitions of the entries do not matter, also for the error. *)
Theorem is_allowed_type_same_members (attributes : dict)
  (L L' : list string) :
  (forall url : string, url ∈ L <-> url ∈ L') ->
  is_allowed_type attributes L = is_allowed_type attributes L'.
Proof.
  intros Hsame. rewrite !is_allowed_type_result.
  destruct L as [|u L], L' as [|u' L'].
  - done.
  - exfalso. apply (not_elem_of_nil u'), Hsame, elem_of_cons. by left.
  - exfalso. apply (not_elem_of_nil u), Hsame, elem_of_cons. by left.
  - destruct (dict_getitem attributes "type_url") as [t|]; [|done].
    f_equal. by apply bool_decide_ext.
Qed.

(** X2: the result depends on the attributes only through [type_url]: no
    other attribute is looked at. *)
Theorem is_allowed_type_only_reads_type_url (attributes attributes' : dict)
  (L : list string) :
  dict_getitem attributes "type_url" = dict_getitem attributes' "type_url" ->
  is_allowed_type attributes L = is_allowed_type attributes' L.
Proof. intros Hsame. rewrite !is_allowed_type_result. by rewrite Hsame. Qed.

(** X3: two non-empty allow-lists in a row: the second is consulted only when
    the first answers false; true and the error of the first are final. *)
Theorem is_allowed_type_app (attributes : dict) (L1 L2 : list string) :
  L1 <> [] ->
  L2 <> [] ->
  is_allowed_type attributes (L1 ++ L2)
  = match is_allowed_type attributes L1 with
    | Ok false => is_allowed_type attributes L2
    | r => r
    end.
Proof.
  intros H1 H2. rewrite !is_allowed_type_result.
  destruct L1 as [|u1 L1]; [done|]. destruct L2 as [|u2 L2]; [done|].
  cbn [app]. destruct (dict_getitem attributes "type_url") as [t|]; [|done].
  change (u1 :: L1 ++ u2 :: L2) with ((u1 :: L1) ++ (u2 :: L2)).
  destruct (decide (t ∈ u1 :: L1)) as [Hin|Hout].
  - rewrite !bool_decide_eq_true_2; [done..|].
    apply elem_of_app. by left.
  - rewrite (bool_decide_eq_false_2 (t ∈ u1 :: L1)) by done.
    f_equal. apply bool_decide_ext. rewrite elem_of_app.
    split; [by intros [?|?] | by right].
Qed.

(** X4: growing a non-empty allow-list never turns an allowed event away.
    (The empty list is the exception the code makes: it allows every
    event, and its first entry narrows it to one type.) *)
Theorem is_allowed_type_monotone (attributes : dict) (L L' : list string) :
  L <> [] ->
  (forall url : string, url ∈ L -> url ∈ L') ->
  is_allowed_type attributes L = Ok true ->
  is_allowed_type attributes L' = Ok true.
Proof.
  intros HL Hsub. rewrite !is_allowed_type_result.
  destruct L as [|u L]; [done|].
  destruct L' as [|u' L']; [done|].
  destruct (dict_getitem attributes "type_url") as [t|]; [|done].
  intros [= Hin%bool_decide_eq_true].
  by rewrite bool_decide_eq_true_2 by auto.
Qed.

(** X5: the only exception [is_allowed_type] raises is the [KeyError] of the
    [type_url] subscript, and it raises it exactly when the allow-list is
    non-empty and the attributes have no [type_url]. *)
Theorem is_allowed_type_raises_iff (attributes : dict) (L : list string)
  (e : exn) :
  is_allowed_type attributes L = Raise e <->
  L <> [] /\ dict_getitem attributes "type_url" = None
  /\ e = KeyError "type_url".
Proof.
  rewrite is_allowed_type_result.
  destruct L as [|u L]; [by split; [|intros [? _]]|].
  destruct (dict_getitem attributes "type_url") as [t|].
  - split; [done | by intros (_ & ? & _)].
  - split; [by intros [= <-] | by intros (_ & _ & ->)].
Qed.

(** ** More on the formatter *)

Lemma attribute_lines_app (d1 d2 : dict) :
  attribute_lines (d1 ++ d2) = attribute_lines d1 +:+ attribute_lines d2.
Proof.
  induction d1 as [|kv d1 IH]; [done|].
  cbn [app attribute_lines]. by rewrite IH, append_assoc.
Qed.

(** The subscript inside the loop cannot fail: the loop only visits keys
    of the dict it reads. *)
Lemma append_attribute_lines_total (d : dict) (keys : list string)
  (text : string) :
  (forall key : string, key ∈ keys -> key ∈ dict_keys d) ->
  exists text' : string, append_attribute_lines d keys text = Ok text'.
Proof.
  revert text. induction keys as [|key keys IH]; intros text Hkeys;
    cbn [append_attribute_lines]; [by eexists|].
  destruct (dict_getitem d key) as [value|] eqn:Hget.
  - apply IH. intros k Hk. apply Hkeys, elem_of_cons. by right.
  - apply dict_getitem_None in Hget. exfalso. apply Hget, Hkeys, elem_of_cons.
    by left.
Qed.

Lemma create_slack_message_total (data : string) (d : dict) :
  exists text : string, create_slack_message data d = Ok text.
Proof.
  unfold create_slack_message.
  destruct (append_attribute_lines_total d (dict_keys d)
              (data +:+ (nl +:+ fence))) as [text' ->]; [done|].
  by eexists.
Qed.

(** X6: keys and values are copied into the message as they are.  A value
    that contains a newline, a tab and "key: value" reads as one more
    attribute: the mapping with the forged value and the mapping with the
    two attributes are different and give the same message. *)
Theorem create_slack_message_no_escaping (data : string) (d : dict)
  (k v k' v' : string) :
  NoDup (dict_keys (d ++ [(k, v); (k', v')])) ->
  d ++ [(k, v +:+ attribute_line (k', v'))] <> d ++ [(k, v); (k', v')] /\
  NoDup (dict_keys (d ++ [(k, v +:+ attribute_line (k', v'))])) /\
  create_slack_message data (d ++ [(k, v +:+ attribute_line (k', v'))])
  = create_slack_message data (d ++ [(k, v); (k', v')]).
Proof.
  intros Hnd.
  assert (NoDup (dict_keys (d ++ [(k, v +:+ attribute_line (k', v'))])))
    as Hnd'.
  { rewrite dict_keys_app in *. cbn [dict_keys map fst] in *.
    apply NoDup_app in Hnd as (Hd & Hdisj & Htail).
    apply NoDup_app. split_and!; [done | | apply NoDup_singleton].
    intros x Hx ->%list_elem_of_singleton.
    apply (Hdisj k Hx), elem_of_cons. by left. }
  split_and!; [|done|].
  - intros Heq. apply (f_equal length) in Heq.
    rewrite !length_app in Heq. cbn in Heq. lia.
  - rewrite !create_slack_message_NoDup by done.
    unfold fenced_block. rewrite !attribute_lines_app.
    cbn [attribute_lines]. unfold attribute_line at 1 3. cbn [fst snd].
    by rewrite !append_assoc.
Qed.

(** ** The entry point, stage by stage *)

Section MainProperties.

Variable b64decode : string -> option (list byte).
Variable decode_utf8 : list byte -> option string.
Variable webhook_send : string -> string -> send_outcome.
Variable environ : gmap string string.

Abbreviation run := (main b64decode decode_utf8 webhook_send environ).

(** Unfold [main] and run it as far as the hypotheses in scope decide. *)
Ltac run_step :=
  repeat match goal with
         | H : _ = _ |- _ => rewrite H
         end;
  cbn -[is_allowed_type create_slack_message allowed_type_urls lookup].

Ltac run_main :=
  unfold main, call_b64decode, call_decode_utf8, call_webhook_send, perform,
    decoded_prefix, trace, outcome;
  repeat (progress run_step).

Lemma main_stops_at_attributes (event : Event) :
  event_attributes event = None ->
  run event = ([EventGet "attributes"], Raise (KeyError "attributes")).
Proof. intros Hattrs. by run_main. Qed.

Lemma main_stops_at_environ (event : Event) (attributes : dict) :
  event_attributes event = Some attributes ->
  environ !! "SLACK_WEBHOOK_URL" = None ->
  run event
  = ([EventGet "attributes"; EnvironGet "SLACK_WEBHOOK_URL"],
     Raise configuration_error).
Proof. intros Hattrs Henv. by run_main. Qed.

Lemma main_stops_at_data (event : Event) (attributes : dict) (url : string) :
  event_attributes event = Some attributes ->
  environ !! "SLACK_WEBHOOK_URL" = Some url ->
  event_data event = None ->
  run event
  = ([EventGet "attributes"; EnvironGet "SLACK_WEBHOOK_URL"; EventGet "data"],
     Raise (KeyError "data")).
Proof. intros Hattrs Henv Hdata. by run_main. Qed.

Lemma main_stops_at_b64decode (event : Event) (attributes : dict)
  (url encoded : string) :
  event_attributes event = Some attributes ->
  environ !! "SLACK_WEBHOOK_URL" = Some url ->
  event_data event = Some encoded ->
  b64decode encoded = None ->
  run event
  = ([EventGet "attributes"; EnvironGet "SLACK_WEBHOOK_URL"; EventGet "data";
      B64Decode encoded],
     Raise BinasciiError).
Proof. intros Hattrs Henv Hdata Hb64. by run_main. Qed.

Lemma main_stops_at_decode_utf8 (event : Event) (attributes : dict)
  (url encoded : string) (raw : list byte) :
  event_attributes event = Some attributes ->
  environ !! "SLACK_WEBHOOK_URL" = Some url ->
  event_data event = Some encoded ->
  b64decode encoded = Some raw ->
  decode_utf8 raw = None ->
  run event = (decoded_prefix encoded raw, Raise UnicodeDecodeError).
Proof. intros Hattrs Henv Hdata Hb64 Hutf8. by run_main. Qed.

Section Decoded.

(** An envelope that passes both lookups and both decoders. *)
Variable event : Event.
Variable attributes : dict.
Variables slack_url encoded decoded_text : string.
Variable raw : list byte.
Hypothesis Hattrs : event_attributes event = Some attributes.
Hypothesis Henv : environ !! "SLACK_WEBHOOK_URL" = Some slack_url.
Hypothesis Hdata : event_data event = Some encoded.
Hypothesis Hb64 : b64decode encoded = Some raw.
Hypothesis Hutf8 : decode_utf8 raw = Some decoded_text.

Lemma main_stops_at_filter (e : exn) :
  is_allowed_type attributes allowed_type_urls = Raise e ->
  run event
  = (decoded_prefix encoded raw ++ [IsAllowedType attributes allowed_type_urls],
     Raise e).
Proof. intros Hfilter. by run_main. Qed.

Lemma main_filtered_out :
  is_allowed_type attributes allowed_type_urls = Ok false ->
  run event
  = (decoded_prefix encoded raw ++ [IsAllowedType attributes allowed_type_urls],
     Ok tt).
Proof. intros Hfilter. by run_main. Qed.

Lemma main_stops_at_format (e : exn) :
  is_allowed_type attributes allowed_type_urls = Ok true ->
  create_slack_message decoded_text attributes = Raise e ->
  run event
  = (decoded_prefix encoded raw
       ++ [IsAllowedType attributes allowed_type_urls;
           CreateSlackMessage decoded_text attributes],
     Raise e).
Proof. intros Hfilter Hformat. by run_main. Qed.

Lemma main_delivers (text : string) :
  is_allowed_type attributes allowed_type_urls = Ok true ->
  create_slack_message decoded_text attributes = Ok text ->
  run event
  = (decoded_prefix encoded raw
       ++ [IsAllowedType attributes allowed_type_urls;
           CreateSlackMessage decoded_text attributes;
           WebhookSend slack_url text],
     match webhook_send slack_url text with
     | SendReturns _ => Ok tt
     | SendRaises reason => Raise (WebhookRaised reason)
     end).
Proof.
  intros Hfilter Hformat. run_main.
  by destruct (webhook_send slack_url text).
Qed.

(** C3: for an envelope with attributes and a decodable payload, and with
    the webhook URL configured, the notifier is called exactly once when
    the filter returns true, with the configured URL and the text made of
    the decoded payload followed by the fenced attribute block, and it is
    not called at all when the filter returns false. *)
Theorem main_notifies_iff_allowed :
  NoDup (dict_keys attributes) ->
  (is_allowed_type attributes allowed_type_urls = Ok true ->
   sends (trace (run event))
   = [(slack_url, decoded_text +:+ fenced_block attributes)]) /\
  (is_allowed_type attributes allowed_type_urls = Ok false ->
   sends (trace (run event)) = []).
Proof.
  intros Hnd. split; intros Hfilter.
  - rewrite (main_delivers (decoded_text +:+ fenced_block attributes))
      by (done || by apply create_slack_message_NoDup).
    reflexivity.
  - by rewrite main_filtered_out.
Qed.

(** C9 (as the code has it): when the event is allowed, an exception
    raised by the webhook call leaves [main] as it is, and a response that
    the call returns is dropped, whatever its status: [main] then ends
    normally. *)
Theorem main_webhook_outcome :
  NoDup (dict_keys attributes) ->
  is_allowed_type attributes allowed_type_urls = Ok true ->
  (forall reason : string,
     webhook_send slack_url (decoded_text +:+ fenced_block attributes)
     = SendRaises reason ->
     outcome (run event) = Raise (WebhookRaised reason)) /\
  (forall response : WebhookResponse,
     webhook_send slack_url (decoded_text +:+ fenced_block attributes)
     = SendReturns response ->
     outcome (run event) = Ok tt).
Proof.
  intros Hnd Hfilter.
  pose proof (main_delivers (decoded_text +:+ fenced_block attributes)
                Hfilter (create_slack_message_NoDup _ _ Hnd)) as Hrun.
  split; intros ? Hsend; rewrite Hrun, Hsend; reflexivity.
Qed.

End Decoded.

(** Every run of [main] ends at one of the stages above. *)
Ltac main_stages event :=
  let attributes := fresh "attributes" in
  let url := fresh "url" in
  let encoded := fresh "encoded" in
  let raw := fresh "raw" in
  let text := fresh "text" in
  destruct (event_attributes event) as [attributes|] eqn:?;
    [|erewrite main_stops_at_attributes by eassumption];
  [destruct (environ !! "SLACK_WEBHOOK_URL") as [url|] eqn:?;
    [|erewrite main_stops_at_environ by eassumption];
  [destruct (event_data event) as [encoded|] eqn:?;
    [|erewrite main_stops_at_data by eassumption];
  [destruct (b64decode encoded) as [raw|] eqn:?;
    [|erewrite main_stops_at_b64decode by eassumption];
  [destruct (decode_utf8 raw) as [text|] eqn:?;
    [|erewrite main_stops_at_decode_utf8 by eassumption];
  [destruct (is_allowed_type attributes allowed_type_urls) as [[|]|]
     eqn:?;
    [|erewrite main_filtered_out by eassumption
     |erewrite main_stops_at_filter by eassumption];
  [destruct (create_slack_message text attributes) eqn:?;
    [erewrite main_delivers by eassumption
    |erewrite main_stops_at_format by eassumption]|..]|..]|..]|..]|..]|..].

(** X7: the notifier is called at most once per invocation. *)
Lemma main_sends_at_most_once (event : Event) :
  length (sends (trace (run event))) <= 1.
Proof. main_stages event; cbn; lia. Qed.

(** C8: the allow-list of [main] has exactly one entry, the literal
    type_url of the GKE upgrade event, and whenever [main] calls the
    filter it passes that list. *)
Theorem allowed_type_urls_fixed (event : Event) :
  allowed_type_urls
  = ["type.googleapis.com/google.container.v1beta1.UpgradeEvent"] /\
  length allowed_type_urls = 1 /\
  (filter_calls (trace (run event)) = [] \/
   filter_calls (trace (run event))
   = [["type.googleapis.com/google.container.v1beta1.UpgradeEvent"]]).
Proof.
  split_and!; [reflexivity..|].
  main_stages event; cbn; auto.
Qed.

(** C5: with a non-empty allow-list and attributes without [type_url],
    [is_allowed_type] raises the [KeyError] of the failed subscript; it
    does not return false.  [main] does not catch it: an invocation that
    reaches the filter with such attributes ends with that [KeyError], the
    filter call being the last entry of the log. *)
Theorem is_allowed_type_missing_type_url (attributes : dict)
  (L : list string) :
  L <> [] ->
  dict_getitem attributes "type_url" = None ->
  is_allowed_type attributes L = Raise (KeyError "type_url") /\
  is_allowed_type attributes L <> Ok false /\
  (forall (event : Event) (slack_url encoded decoded_text : string)
          (raw : list byte),
     event_attributes event = Some attributes ->
     environ !! "SLACK_WEBHOOK_URL" = Some slack_url ->
     event_data event = Some encoded ->
     b64decode encoded = Some raw ->
     decode_utf8 raw = Some decoded_text ->
     run event
     = (decoded_prefix encoded raw
          ++ [IsAllowedType attributes allowed_type_urls],
        Raise (KeyError "type_url"))).
Proof.
  intros HL Hmissing.
  assert (forall urls, urls <> [] ->
            is_allowed_type attributes urls = Raise (KeyError "type_url"))
    as Hraises.
  { intros [|url urls] Hne; [done|].
    by apply is_allowed_type_loop_missing. }
  split_and!.
  - by apply Hraises.
  - by rewrite Hraises.
  - intros event slack_url encoded decoded_text raw ? ? ? ? ?.
    eapply main_stops_at_filter; [eassumption..|].
    by apply Hraises.
Qed.

(** C6 (as the code has it): without [SLACK_WEBHOOK_URL] in the
    environment [main] fails before any decoding, filtering or sending.
    The failure is the configuration error when the envelope has its
    [attributes] key; an envelope without it fails one statement earlier,
    with the [KeyError] on [attributes]. *)
Theorem main_unconfigured_fails_early (event : Event) :
  environ !! "SLACK_WEBHOOK_URL" = None ->
  (is_Some (event_attributes event) ->
   outcome (run event) = Raise configuration_error) /\
  (event_attributes event = None ->
   outcome (run event) = Raise (KeyError "attributes")) /\
  Forall (fun e => is_decode_step e = false /\ is_filter_step e = false)
    (trace (run event)) /\
  sends (trace (run event)) = [].
Proof.
  intros Henv. destruct (event_attributes event) as [attributes|] eqn:Hattrs.
  - rewrite (main_stops_at_environ event attributes) by done.
    split_and!; [done | done | | done].
    repeat constructor.
  - rewrite main_stops_at_attributes by done.
    split_and!; [by intros [? ?] | done | | done].
    repeat constructor.
Qed.


(** C10: [event['attributes']] is read before the environment.  For an
    envelope without the [attributes] key the invocation ends with the
    [KeyError] on [attributes] right after that lookup; the environment is
    not consulted, so this holds whether or not the webhook URL is set. *)
Theorem main_reads_attributes_first (event : Event) :
  event_attributes event = None ->
  run event = ([EventGet "attributes"], Raise (KeyError "attributes")) /\
  Forall (fun e => is_environ_step e = false) (trace (run event)).
Proof.
  intros Hattrs. rewrite main_stops_at_attributes by done.
  split; [done | repeat constructor].
Qed.

(** ** The entry point as a whole *)

(** What the hypotheses collected by [main_stages] say about the filter
    and the formatter. *)
Ltac stage_facts :=
  repeat match goal with
         | H : is_allowed_type _ _ = Raise _ |- _ =>
             apply is_allowed_type_raises_iff in H as (_ & ? & ->)
         | H : create_slack_message ?data ?d = Raise _ |- _ =>
             destruct (create_slack_message_total data d) as [? ?];
             congruence
         end.

(** X8: which envelopes are relayed: the notifier is called exactly when both
    lookups and both decoders succeed and [type_url] is the upgrade-event
    type. *)
Theorem main_notifies_iff (event : Event) :
  sends (trace (run event)) <> [] <->
  exists (attributes : dict) (url encoded text : string) (raw : list byte),
    event_attributes event = Some attributes /\
    environ !! "SLACK_WEBHOOK_URL" = Some url /\
    event_data event = Some encoded /\
    b64decode encoded = Some raw /\
    decode_utf8 raw = Some text /\
    dict_getitem attributes "type_url"
    = Some "type.googleapis.com/google.container.v1beta1.UpgradeEvent".
Proof.
  split.
  - main_stages event; cbn; try congruence. intros _.
    match goal with
    | H : is_allowed_type _ _ = Ok true |- _ =>
        rewrite is_allowed_type_result in H; unfold allowed_type_urls in H;
        destruct (dict_getitem attributes "type_url") as [t|] eqn:Ht;
        [injection H as H%bool_decide_eq_true;
         apply list_elem_of_singleton in H as ->
        |discriminate H]
    end.
    by eexists _, _, _, _, _.
  - intros (attributes & url & encoded & text & raw
            & Hattrs & Henv & Hdata & Hb64 & Hutf8 & Htype).
    assert (is_allowed_type attributes allowed_type_urls = Ok true) as Hfilter.
    { rewrite is_allowed_type_result. unfold allowed_type_urls. rewrite Htype.
      by apply (f_equal Ok), bool_decide_eq_true_2, list_elem_of_singleton. }
    destruct (create_slack_message_total text attributes) as [msg Hmsg].
    erewrite main_delivers by eassumption. cbn. congruence.
Qed.

(** X9: when an invocation succeeds: [main] returns exactly when the run
    reaches the filter and either the filter answers false or the message
    is posted and the client returns a response. *)
Theorem main_returns_iff (event : Event) :
  outcome (run event) = Ok tt <->
  exists (attributes : dict) (url encoded text : string) (raw : list byte),
    event_attributes event = Some attributes /\
    environ !! "SLACK_WEBHOOK_URL" = Some url /\
    event_data event = Some encoded /\
    b64decode encoded = Some raw /\
    decode_utf8 raw = Some text /\
    (is_allowed_type attributes allowed_type_urls = Ok false \/
     exists (message : string) (response : WebhookResponse),
       is_allowed_type attributes allowed_type_urls = Ok true /\
       create_slack_message text attributes = Ok message /\
       webhook_send url message = SendReturns response).
Proof.
  split.
  - main_stages event; cbn; try congruence.
    + match goal with
      | |- context [webhook_send ?u ?m] =>
          destruct (webhook_send u m) as [response|reason] eqn:Hsend
      end; [|congruence].
      intros _. eexists _, _, _, _, _. split_and!; try done.
      right. by eexists _, _.
    + intros _. eexists _, _, _, _, _. split_and!; try done. by left.
  - intros (attributes & url & encoded & text & raw
            & Hattrs & Henv & Hdata & Hb64 & Hutf8
            & [Hfalse|(message & response & Htrue & Hmsg & Hsend)]).
    + by erewrite main_filtered_out by eassumption.
    + erewrite main_delivers by eassumption. cbn. by rewrite Hsend.
Qed.

(** X10: the log of every invocation is an initial segment of the eight
    steps of [main] in program order, and the outcome says where it ends:
    when [main] raises, the last step logged is the one the exception
    comes from, so nothing runs after a step that raised; when [main]
    returns, the log ends with the filter (six steps) or with the send
    (all eight). *)
Theorem main_log_in_program_order (event : Event) :
  map effect_stage (trace (run event)) `prefix_of` [0; 1; 2; 3; 4; 5; 6; 7] /\
  match outcome (run event) with
  | Ok _ =>
      map effect_stage (trace (run event)) = seq 0 6 \/
      map effect_stage (trace (run event)) = seq 0 8
  | Raise e =>
      map effect_stage (trace (run event)) = seq 0 (S (raising_stage e))
  end.
Proof.
  main_stages event; stage_facts; cbn; (split; [by eexists|]); auto.
  destruct (webhook_send _ _); [by right | reflexivity].
Qed.

(** X12: an envelope without the [data] key, in a configured process: the
    invocation ends with the [KeyError] on [data] after the three
    lookups, whatever the type of the event, before any decoding,
    filtering or sending. *)
Theorem main_missing_data (event : Event) :
  is_Some (event_attributes event) ->
  is_Some (environ !! "SLACK_WEBHOOK_URL") ->
  event_data event = None ->
  run event
  = ([EventGet "attributes"; EnvironGet "SLACK_WEBHOOK_URL"; EventGet "data"],
     Raise (KeyError "data")) /\
  Forall (fun e => is_decode_step e = false /\ is_filter_step e = false)
    (trace (run event)) /\
  sends (trace (run event)) = [].
Proof.
  intros [attributes Hattrs] [url Henv] Hdata.
  rewrite (main_stops_at_data event attributes url) by done.
  split_and!; [done | repeat constructor | done].
Qed.


(** X14: a failed invocation has posted to Slack exactly when the failure is
    the one the client raised: every other failure happens before the
    call, so redelivering the event cannot repeat a message. *)
Theorem main_failure_after_send (event : Event) (e : exn) :
  outcome (run event) = Raise e ->
  (sends (trace (run event)) <> [] <->
   exists reason : string, e = WebhookRaised reason).
Proof.
  main_stages event; stage_facts; cbn; intros He;
    try (injection He as <-; split; [congruence | by intros [? ?]]).
  - destruct (webhook_send _ _); [discriminate He|].
    injection He as <-. split; [by eexists | congruence].
  - discriminate He.
Qed.

End MainProperties.

(** ** The two reference decoders *)

Module ReferenceFacts.

Import Reference.

Lemma in_range_spec lo hi n : in_range lo hi n = true <-> (lo <= n <= hi)%N.
Proof. unfold in_range. rewrite andb_true_iff, !N.leb_le. done. Qed.

Lemma sextet_bound c v : sextet c = Some v -> (v < 64)%N /\ (N_of_ascii c <= 127)%N /\ is_pad c = false.
Proof.
  unfold sextet, is_pad. intros H.
  repeat match type of H with
  | (if in_range ?a ?b ?n then _ else _) = _ => destruct (in_range a b n) eqn:?
  | (if (?a =? ?b)%N then _ else _) = _ => destruct (N.eqb_spec a b)
  end; try discriminate; injection H as <-;
  repeat match goal with H : in_range _ _ _ = true |- _ => apply in_range_spec in H end;
  (split_and!; [lia | lia | apply N.eqb_neq; lia]).
Qed.

Lemma a2b_step c v rest q lb lc out :
  sextet c = Some v ->
  a2b_base64 (c :: rest) q lb lc out
  = if (8 <=? lb + 6)%N then
      a2b_base64 rest ((q + 1) mod 4)%N (lb + 6 - 8)%N ((lc * 64 + v) mod 2 ^ (lb + 6 - 8))%N
        (out ++ [byte_of_N (((lc * 64 + v) / 2 ^ (lb + 6 - 8)) mod 256)%N])
    else a2b_base64 rest ((q + 1) mod 4)%N (lb + 6)%N (lc * 64 + v)%N out.
Proof.
  intros H. destruct (sextet_bound c v H) as (_ & _ & Hpad).
  cbn [a2b_base64]. rewrite Hpad, H. reflexivity.
Qed.


(** Linear arithmetic with division and remainder by constants. *)
Ltac div_lia := zify; Z.to_euclidean_division_equations; lia.

Lemma a2b_pair a b x y rest out :
  sextet a = Some x -> sextet b = Some y ->
  a2b_base64 (a :: b :: rest) 0 0 0 out
  = a2b_base64 rest 2 4 (y mod 16)%N (out ++ [byte_of_N (x * 4 + y / 16)%N]).
Proof.
  intros Ha Hb.
  destruct (sextet_bound _ _ Ha) as (Hx & _), (sextet_bound _ _ Hb) as (Hy & _).
  rewrite (a2b_step a x) by done.
  change (8 <=? 0 + 6)%N with false. cbv iota.
  rewrite (a2b_step b y) by done.
  change (8 <=? 0 + 6 + 6)%N with true. cbv iota.
  change ((0 + 1 + 1) mod 4)%N with 2%N. change (0 + 6 + 6 - 8)%N with 4%N.
  change (2 ^ 4)%N with 16%N. change (0 * 64 + x)%N with x.
  replace ((x * 64 + y) mod 16)%N with (y mod 16)%N by div_lia.
  replace (((x * 64 + y) / 16) mod 256)%N with (x * 4 + y / 16)%N by div_lia.
  reflexivity.
Qed.

Lemma a2b_third c z l rest out :
  sextet c = Some z -> (l < 16)%N ->
  a2b_base64 (c :: rest) 2 4 l out
  = a2b_base64 rest 3 2 (z mod 4)%N (out ++ [byte_of_N (l * 16 + z / 4)%N]).
Proof.
  intros Hc Hl. destruct (sextet_bound _ _ Hc) as (Hz & _).
  rewrite (a2b_step c z) by done.
  change (8 <=? 4 + 6)%N with true. cbv iota.
  change ((2 + 1) mod 4)%N with 3%N. change (4 + 6 - 8)%N with 2%N.
  change (2 ^ 2)%N with 4%N.
  replace ((l * 64 + z) mod 4)%N with (z mod 4)%N by div_lia.
  replace (((l * 64 + z) / 4) mod 256)%N with (l * 16 + z / 4)%N by div_lia.
  reflexivity.
Qed.

Lemma a2b_fourth d w l rest out :
  sextet d = Some w -> (l < 4)%N ->
  a2b_base64 (d :: rest) 3 2 l out
  = a2b_base64 rest 0 0 0 (out ++ [byte_of_N (l * 64 + w)%N]).
Proof.
  intros Hd Hl. destruct (sextet_bound _ _ Hd) as (Hw & _).
  rewrite (a2b_step d w) by done.
  change (8 <=? 2 + 6)%N with true. cbv iota.
  change ((3 + 1) mod 4)%N with 0%N. change (2 + 6 - 8)%N with 0%N.
  change (2 ^ 0)%N with 1%N.
  replace ((l * 64 + w) mod 1)%N with 0%N by div_lia.
  replace (((l * 64 + w) / 1) mod 256)%N with (l * 64 + w)%N by div_lia.
  reflexivity.
Qed.

Lemma is_pad_no_sextet c : is_pad c = true -> sextet c = None.
Proof.
  unfold is_pad, sextet. intros ->%N.eqb_eq. reflexivity.
Qed.

Lemma is_pad_ascii c : is_pad c = true -> (N_of_ascii c <=? 127)%N = true.
Proof. unfold is_pad. intros ->%N.eqb_eq. reflexivity. Qed.

(** One group, as the strict decoder reads it, through the lenient loop. *)
Lemma a2b_group last a b c d bs rest out :
  decode_group last a b c d = Some bs ->
  (last = true -> rest = []) ->
  a2b_base64 (a :: b :: c :: d :: rest) 0 0 0 out
  = if last then Some (out ++ bs) else a2b_base64 rest 0 0 0 (out ++ bs).
Proof.
  unfold decode_group. intros Hgroup Hrest.
  destruct (sextet a) as [x|] eqn:Ha; [|done].
  destruct (sextet b) as [y|] eqn:Hb; [|done].
  rewrite (a2b_pair a b x y) by done.
  assert (y mod 16 < 16)%N as Hy16 by div_lia.
  destruct (sextet c) as [z|] eqn:Hc.
  - rewrite (a2b_third c z) by done.
    assert (z mod 4 < 4)%N as Hz4 by div_lia.
    destruct (sextet d) as [w|] eqn:Hd.
    + injection Hgroup as <-. rewrite (a2b_fourth d w) by done.
      rewrite <- !app_assoc. cbn [app].
      destruct last; [|done]. rewrite Hrest by done. reflexivity.
    + destruct last; [|done]. cbn [andb] in Hgroup.
      destruct (is_pad d) eqn:Hpad; [|done]. injection Hgroup as <-.
      cbn [a2b_base64]. rewrite Hpad. cbn. by rewrite <- app_assoc.
  - destruct last; [|done]. cbn [andb] in Hgroup.
    destruct (is_pad c) eqn:Hpc; [|done].
    destruct (is_pad d) eqn:Hpd; [|done]. injection Hgroup as <-.
    cbn [a2b_base64]. rewrite Hpc. cbn [next_valid_is_pad]. rewrite Hpd.
    reflexivity.
Qed.

Lemma decode_group_ascii last a b c d bs :
  decode_group last a b c d = Some bs ->
  forallb (fun c => (N_of_ascii c <=? 127)%N) [a; b; c; d] = true.
Proof.
  unfold decode_group. intros Hgroup.
  assert (forall c, is_Some (sextet c) \/ is_pad c = true ->
            (N_of_ascii c <=? 127)%N = true) as Hok.
  { intros ch [[v Hv]|Hp]; [|by apply is_pad_ascii].
    apply N.leb_le. by destruct (sextet_bound _ _ Hv) as (_ & ? & _). }
  destruct (sextet a) eqn:Ha; [|done]. destruct (sextet b) eqn:Hb; [|done].
  cbn [forallb]. rewrite (Hok a), (Hok b) by (left; eauto). cbn [andb].
  destruct (sextet c) eqn:Hc.
  - rewrite (Hok c) by (left; eauto). cbn [andb].
    destruct (sextet d) eqn:Hd; [by rewrite (Hok d) by (left; eauto)|].
    destruct last; [|done]. cbn [andb] in Hgroup.
    destruct (is_pad d) eqn:Hpd; [|done]. by rewrite (Hok d) by (by right).
  - destruct last; [|done]. cbn [andb] in Hgroup.
    destruct (is_pad c) eqn:Hpc; [|done]. destruct (is_pad d) eqn:Hpd; [|done].
    by rewrite (Hok c), (Hok d) by (by right).
Qed.

Lemma decode_groups_lenient (n : nat) :
  forall (cs : list ascii) (bs out : list byte),
  length cs <= n ->
  decode_groups cs = Some bs ->
  forallb (fun c => (N_of_ascii c <=? 127)%N) cs = true /\
  a2b_base64 cs 0 0 0 out = Some (out ++ bs).
Proof.
  induction n as [|n IH]; intros cs bs out Hlen Hdec.
  - destruct cs; [|cbn in Hlen; lia]. injection Hdec as <-.
    by rewrite app_nil_r.
  - destruct cs as [|a [|b [|c [|d rest]]]]; try discriminate.
    + injection Hdec as <-. by rewrite app_nil_r.
    + destruct rest as [|e rest].
      * cbn [decode_groups] in Hdec. split.
        -- by eapply decode_group_ascii.
        -- by rewrite (a2b_group true a b c d bs []).
      * change (match decode_group false a b c d,
                      decode_groups (e :: rest) with
                | Some bs1, Some more => Some (bs1 ++ more)
                | _, _ => None
                end = Some bs) in Hdec.
        destruct (decode_group false a b c d) as [bs1|] eqn:Hg; [|done].
        destruct (decode_groups (e :: rest)) as [bs2|] eqn:Hrest; [|done].
        injection Hdec as <-.
        destruct (IH (e :: rest) bs2 (out ++ bs1)) as [Hascii Hloop];
          [cbn [length] in *; lia | done |].
        split.
        -- change (a :: b :: c :: d :: e :: rest)
             with ([a; b; c; d] ++ e :: rest).
           rewrite forallb_app, Hascii, (decode_group_ascii _ _ _ _ _ _ Hg).
           done.
        -- rewrite (a2b_group false a b c d bs1) by done.
           by rewrite Hloop, app_assoc.
Qed.

(** What the strict decoder accepts, the lenient one decodes to the same
    bytes: on valid encodings the choice of decoder makes no difference. *)
Lemma b64decode_lenient_extends (encoded : string) (raw : list byte) :
  b64decode encoded = Some raw -> b64decode_lenient encoded = Some raw.
Proof.
  unfold b64decode, b64decode_lenient. intros Hdec.
  destruct (decode_groups_lenient _ _ _ [] (le_n _) Hdec) as [-> ->].
  done.
Qed.

End ReferenceFacts.

(** ** Concrete envelopes on the reference host *)

Example reference_decodes_payload :
  Reference.b64decode "Tm9kZSBwb29sIHVwZ3JhZGVk"
    ≫= Reference.decode_utf8 = Some "Node pool upgraded"
  /\ Reference.b64decode "dXBncmFkZSBjb21wbGV0ZQ=="
       ≫= Reference.decode_utf8 = Some "upgrade complete".
Proof. split; vm_compute; reflexivity. Qed.

Example reference_rejects_payload :
  Reference.b64decode "abc" = None
  /\ Reference.b64decode "/w==" = Some [Byte.xff]
  /\ Reference.decode_utf8 [Byte.xff] = None.
Proof. split_and!; vm_compute; reflexivity. Qed.

(** Scenario B: an event of another type reaches the filter and stops
    there, without a call to the notifier. *)
Example scenario_other_event :
  sends (trace (Reference.run Reference.slack_accepts Reference.configured
                  Reference.other_event)) = []
  /\ outcome (Reference.run Reference.slack_accepts Reference.configured
                Reference.other_event) = Ok tt.
Proof. split; vm_compute; reflexivity. Qed.

Lemma main_notifies_iff_allowed_witness :
  is_allowed_type Reference.upgrade_attributes allowed_type_urls = Ok true /\
  sends (trace (Reference.run Reference.slack_accepts Reference.configured
                  Reference.upgrade_event))
  = [(Reference.webhook_url,
      "Node pool upgraded" +:+ fenced_block Reference.upgrade_attributes)].
Proof.
  split; [reflexivity|].
  refine (proj1 (main_notifies_iff_allowed
                   Reference.b64decode Reference.decode_utf8
                   Reference.slack_accepts Reference.configured
                   Reference.upgrade_event Reference.upgrade_attributes
                   Reference.webhook_url "Tm9kZSBwb29sIHVwZ3JhZGVk"
                   "Node pool upgraded"
                   (list_byte_of_string "Node pool upgraded")
                   _ _ _ _ _ _) _);
    try (vm_compute; reflexivity).
  compute_done.
Defined.

Lemma is_allowed_type_missing_type_url_witness :
  is_allowed_type [("cluster", "prod")] allowed_type_urls
  = Raise (KeyError "type_url")
  /\ outcome (Reference.run Reference.slack_accepts Reference.configured
                Reference.untyped_event) = Raise (KeyError "type_url").
Proof.
  pose proof (is_allowed_type_missing_type_url
                Reference.b64decode Reference.decode_utf8
                Reference.slack_accepts Reference.configured
                [("cluster", "prod")] allowed_type_urls
                ltac:(discriminate) ltac:(reflexivity))
    as (Hraises & _ & Hmain).
  split; [exact Hraises|].
  unfold Reference.run.
  rewrite (Hmain Reference.untyped_event Reference.webhook_url
             "Tm9kZSBwb29sIHVwZ3JhZGVk" "Node pool upgraded"
             (list_byte_of_string "Node pool upgraded"));
    vm_compute; reflexivity.
Defined.

Lemma main_reads_attributes_first_witness :
  Reference.unconfigured !! "SLACK_WEBHOOK_URL" = None /\
  Reference.run Reference.slack_accepts Reference.unconfigured
    Reference.bare_event
  = ([EventGet "attributes"], Raise (KeyError "attributes")).
Proof.
  split; [reflexivity|].
  apply (main_reads_attributes_first
           Reference.b64decode Reference.decode_utf8 Reference.slack_accepts
           Reference.unconfigured Reference.bare_event).
  reflexivity.
Defined.

(** C6, where the code departs from it: no webhook URL and no
    [attributes] key.  The invocation ends with the [KeyError] on
    [attributes], which is not the configuration error. *)
Lemma main_missing_attributes_preempts_configuration_error :
  Reference.unconfigured !! "SLACK_WEBHOOK_URL" = None /\
  outcome (Reference.run Reference.slack_accepts Reference.unconfigured
             Reference.bare_event) = Raise (KeyError "attributes") /\
  outcome (Reference.run Reference.slack_accepts Reference.unconfigured
             Reference.bare_event) <> Raise configuration_error.
Proof. split_and!; [reflexivity | reflexivity | discriminate]. Qed.

Lemma main_unconfigured_fails_early_witness :
  Reference.unconfigured !! "SLACK_WEBHOOK_URL" = None /\
  outcome (Reference.run Reference.slack_accepts Reference.unconfigured
             Reference.upgrade_event) = Raise configuration_error.
Proof.
  split; [reflexivity|].
  refine (proj1 (main_unconfigured_fails_early
                   Reference.b64decode Reference.decode_utf8
                   Reference.slack_accepts Reference.unconfigured
                   Reference.upgrade_event _) _).
  - reflexivity.
  - vm_compute. eexists. reflexivity.
Defined.



(** C9, where the code departs from it: an allowed event whose post
    Slack answers with status 500.  [WebhookClient.send] returns that
    response, [main] drops it, and the invocation ends normally. *)
Lemma main_ignores_rejected_delivery :
  is_allowed_type Reference.upgrade_attributes allowed_type_urls = Ok true /\
  Reference.slack_rejects Reference.webhook_url
    ("Node pool upgraded" +:+ fenced_block Reference.upgrade_attributes)
  = SendReturns {| status_code := 500; body := "internal_error" |} /\
  sends (trace (Reference.run Reference.slack_rejects Reference.configured
                  Reference.upgrade_event))
  = [(Reference.webhook_url,
      "Node pool upgraded" +:+ fenced_block Reference.upgrade_attributes)] /\
  outcome (Reference.run Reference.slack_rejects Reference.configured
             Reference.upgrade_event) = Ok tt.
Proof. split_and!; vm_compute; reflexivity. Qed.

Lemma main_webhook_outcome_witness :
  is_allowed_type Reference.upgrade_attributes allowed_type_urls = Ok true /\
  outcome (Reference.run Reference.network_down Reference.configured
             Reference.upgrade_event) = Raise (WebhookRaised "URLError").
Proof.
  split; [reflexivity|].
  refine (proj1 (main_webhook_outcome
                   Reference.b64decode Reference.decode_utf8
                   Reference.network_down Reference.configured
                   Reference.upgrade_event Reference.upgrade_attributes
                   Reference.webhook_url "Tm9kZSBwb29sIHVwZ3JhZGVk"
                   "Node pool upgraded"
                   (list_byte_of_string "Node pool upgraded")
                   _ _ _ _ _ _ _) "URLError" _);
    try (vm_compute; reflexivity).
  compute_done.
Defined.

(** ** Concrete inputs for the further properties *)

Lemma is_allowed_type_same_members_witness :
  is_allowed_type Reference.other_attributes ["a"; "some.other.Event"]
  = is_allowed_type Reference.other_attributes
      ["some.other.Event"; "a"; "a"]
  /\ is_allowed_type Reference.other_attributes ["a"; "some.other.Event"]
     = Ok true.
Proof.
  split; [|reflexivity].
  apply (is_allowed_type_same_members Reference.other_attributes
           ["a"; "some.other.Event"] ["some.other.Event"; "a"; "a"]).
  intros url. rewrite !elem_of_cons, !elem_of_nil. tauto.
Defined.

Lemma is_allowed_type_only_reads_type_url_witness :
  is_allowed_type Reference.upgrade_attributes allowed_type_urls
  = is_allowed_type
      (dict_literal
         [("cluster", "prod");
          ("type_url",
           "type.googleapis.com/google.container.v1beta1.UpgradeEvent")])
      allowed_type_urls.
Proof.
  apply (is_allowed_type_only_reads_type_url Reference.upgrade_attributes).
  reflexivity.
Defined.

Lemma is_allowed_type_app_witness :
  is_allowed_type Reference.upgrade_attributes
    (["some.other.Event"] ++ allowed_type_urls)
  = is_allowed_type Reference.upgrade_attributes allowed_type_urls.
Proof.
  apply (is_allowed_type_app Reference.upgrade_attributes
           ["some.other.Event"] allowed_type_urls); discriminate.
Defined.

Lemma is_allowed_type_monotone_witness :
  is_allowed_type Reference.upgrade_attributes
    ("some.other.Event" :: allowed_type_urls) = Ok true.
Proof.
  apply (is_allowed_type_monotone Reference.upgrade_attributes
           allowed_type_urls ("some.other.Event" :: allowed_type_urls)).
  - discriminate.
  - intros url Hin. apply elem_of_cons. by right.
  - reflexivity.
Defined.

Lemma create_slack_message_no_escaping_witness :
  create_slack_message "Node pool upgraded"
    [("type_url", "t" +:+ attribute_line ("cluster", "prod"))]
  = create_slack_message "Node pool upgraded"
      [("type_url", "t"); ("cluster", "prod")].
Proof.
  apply (create_slack_message_no_escaping "Node pool upgraded" []
           "type_url" "t" "cluster" "prod").
  compute_done.
Defined.

Lemma main_missing_data_witness :
  outcome (Reference.run Reference.slack_accepts Reference.configured
             {| event_attributes := Some Reference.other_attributes;
                event_data := None |})
  = Raise (KeyError "data").
Proof.
  unfold Reference.run.
  rewrite (proj1 (main_missing_data
                    Reference.b64decode Reference.decode_utf8
                    Reference.slack_accepts Reference.configured
                    {| event_attributes := Some Reference.other_attributes;
                       event_data := None |}
                    ltac:(by eexists) ltac:(by eexists)
                    ltac:(reflexivity))).
  reflexivity.
Defined.


Lemma main_failure_after_send_witness :
  outcome (Reference.run Reference.network_down Reference.configured
             Reference.upgrade_event) = Raise (WebhookRaised "URLError") /\
  sends (trace (Reference.run Reference.network_down Reference.configured
                  Reference.upgrade_event)) <> [].
Proof.
  split; [reflexivity|].
  apply (main_failure_after_send
           Reference.b64decode Reference.decode_utf8 Reference.network_down
           Reference.configured Reference.upgrade_event
           (WebhookRaised "URLError")).
  - reflexivity.
  - by eexists.
Defined.
